(** * line_multiplication: the two Playwright verification scripts

    [src/verify_setup.py] and [src/verify_visualization.py] drive a headless
    browser against a local dev server.  Both are straight-line glue over the
    Playwright sync API, so the embedding is a state-and-exception monad over
    what the scripts can observe and change (stdout, the screenshot files,
    the listeners attached to the page, and the sequence of library calls),
    run against a [World] that fixes how the library answers each call. *)

From Stdlib Require Import String List.
From stdpp Require Import base option list gmap strings.
Import ListNotations.
Open Scope string_scope.

(** ** Values exchanged with the library *)

(** Events the page emits while a call is pending: arguments of the
    ["console"] and ["pageerror"] callbacks. *)
Inductive ObservedEvent : Type :=
  | ConsoleMessage (text : string)
  | PageError (message : string).

(** A raised Python exception: whether it is an instance of [Exception]
    (Playwright's own errors are; [KeyboardInterrupt], [SystemExit] and the
    like, which can surface inside any call, are not), and its [str(e)]. *)
Record exn : Type := Exn { is_Exception : bool; exn_str : string }.

Inductive outcome (A : Type) : Type :=
  | Returned (a : A)
  | Raised (e : exn).
Arguments Returned {A} a.
Arguments Raised {A} e.

(** Bytes of a PNG image. *)
Definition image : Type := list Byte.byte.

(** What a blocking library call does: the page events dispatched while the
    script waits in it, then its result. *)
Record reply (A : Type) : Type := Reply {
  during : list ObservedEvent;
  answer : outcome A
}.
Arguments Reply {A} during answer.
Arguments during {A} r.
Arguments answer {A} r.

(** The library calls of the two scripts, with the arguments they pass. *)
Inductive Call : Type :=
  | CStart                                         (* sync_playwright().__enter__ *)
  | CStop                                          (* sync_playwright().__exit__ *)
  | CLaunch (headless : bool) (args : list string) (* p.chromium.launch *)
  | CNewPage                                       (* browser.new_page *)
  | COn (event : string)                           (* page.on *)
  | CGoto (url : string)                           (* page.goto *)
  | CWaitForLoadState (state : string)             (* page.wait_for_load_state *)
  | CSleep (seconds : nat)                         (* time.sleep *)
  | CTitle                                         (* page.title *)
  | CIsVisible (selector : string)                 (* locator.is_visible *)
  | CCount (selector : string)                     (* locator.count *)
  | CPageScreenshot (path : string) (full_page : bool)  (* page.screenshot *)
  | CLocatorScreenshot (selector path : string)    (* locator.screenshot *)
  | CClose.                                        (* browser.close *)

(** A finished call: [None] when it returned, [Some e] when it raised [e]. *)
Definition Entry : Type := Call * option exn.

(** The browser, the dev server and the page it serves. *)
Record World : Type := {
  w_start : outcome unit;
  w_launch : bool -> list string -> outcome unit;
  w_new_page : outcome unit;
  w_goto : string -> reply unit;
  w_wait_for_load_state : string -> reply unit;
  w_title : reply string;
  w_is_visible : string -> reply bool;
  w_count : string -> reply nat;
  w_page_screenshot : bool -> reply image;
  w_locator_screenshot : string -> reply image;
  w_close : reply unit
}.

(** ** Script state *)

Record State : Type := {
  stdout : list string;                          (* printed lines, oldest first *)
  disk : gmap string image;                      (* files by relative path *)
  listeners : list (string * (string -> string)); (* page.on registrations *)
  trace : list Entry                             (* finished calls, oldest first *)
}.

Definition init (d : gmap string image) : State :=
  {| stdout := []; disk := d; listeners := []; trace := [] |}.

Definition M (A : Type) : Type := State -> outcome A * State.

Definition ret {A} (a : A) : M A := fun s => (Returned a, s).

(** Sequencing: an exception skips the rest, the state reached is kept. *)
Definition bind {A B} (m : M A) (k : A -> M B) : M B :=
  fun s => match m s with
           | (Returned a, s') => k a s'
           | (Raised e, s') => (Raised e, s')
           end.

Notation "x <- m ;; k" := (bind m (fun x => k))
  (at level 100, m at next level, right associativity, only parsing).
Notation "m ;; k" := (bind m (fun _ => k))
  (at level 100, right associativity, only parsing).

(** [try: body except Exception as e: handler e]: what is not an instance
    of [Exception] passes through. *)
Definition try_except {A} (body : M A) (handler : exn -> M A) : M A :=
  fun s => match body s with
           | (Returned a, s') => (Returned a, s')
           | (Raised e, s') =>
               if is_Exception e then handler e s' else (Raised e, s')
           end.

(** [try: body finally: cleanup], the shape of a [with] block's exit. *)
Definition finally {A} (body : M A) (cleanup : M unit) : M A :=
  fun s => match body s with
           | (r, s') =>
               match cleanup s' with
               | (Returned _, s'') => (r, s'')
               | (Raised e, s'') => (Raised e, s'')
               end
           end.

Definition print (line : string) : M unit :=
  fun s => (Returned tt,
            {| stdout := stdout s ++ [line]; disk := disk s;
               listeners := listeners s; trace := trace s |}).

Definition record (c : Call) (o : option exn) : M unit :=
  fun s => (Returned tt,
            {| stdout := stdout s; disk := disk s;
               listeners := listeners s; trace := trace s ++ [(c, o)] |}).

Definition write_file (path : string) (img : image) : M unit :=
  fun s => (Returned tt,
            {| stdout := stdout s; disk := <[path := img]> (disk s);
               listeners := listeners s; trace := trace s |}).

(** Falling through an [if] without [else]. *)
Definition pass : M unit := ret tt.

Definition raise {A} (e : exn) : M A := fun s => (Raised e, s).

(** ** Event dispatch *)

Definition event_name (ev : ObservedEvent) : string :=
  match ev with
  | ConsoleMessage _ => "console"
  | PageError _ => "pageerror"
  end.

(** [msg.text] of a console message, [str(exc)] of a page error. *)
Definition event_text (ev : ObservedEvent) : string :=
  match ev with
  | ConsoleMessage text => text
  | PageError message => message
  end.

(** Lines printed by the listeners registered for [ev], in registration
    order.  Every handler of the source is a lambda printing one line. *)
Definition handle (ls : list (string * (string -> string))) (ev : ObservedEvent)
  : list string :=
  flat_map (fun l => if String.eqb (fst l) (event_name ev)
                     then [snd l (event_text ev)] else []) ls.

Definition dispatch (evs : list ObservedEvent) : M unit :=
  fun s => (Returned tt,
            {| stdout := stdout s ++ flat_map (handle (listeners s)) evs;
               disk := disk s; listeners := listeners s; trace := trace s |}).

(** ** The library calls *)

(** A call that involves no page: nothing is dispatched. *)
Definition call0 {A} (c : Call) (o : outcome A) : M A :=
  match o with
  | Returned a => record c None ;; ret a
  | Raised e => record c (Some e) ;; raise e
  end.

(** A call on the page: pending events reach the listeners, then the call
    returns or raises. *)
Definition call {A} (c : Call) (r : reply A) : M A :=
  dispatch (during r) ;; call0 c (answer r).

Section Scripts.

Variable w : World.

Definition launch (headless : bool) (args : list string) : M unit :=
  call0 (CLaunch headless args) (w_launch w headless args).

Definition new_page : M unit := call0 CNewPage (w_new_page w).

Definition page_on (event : string) (handler : string -> string) : M unit :=
  fun s => record (COn event) None
             {| stdout := stdout s; disk := disk s;
                listeners := listeners s ++ [(event, handler)];
                trace := trace s |}.

Definition goto (url : string) : M unit := call (CGoto url) (w_goto w url).

Definition wait_for_load_state (state : string) : M unit :=
  call (CWaitForLoadState state) (w_wait_for_load_state w state).

(** [time.sleep] blocks the whole process: nothing is dispatched. *)
Definition sleep (seconds : nat) : M unit := record (CSleep seconds) None.

Definition page_title : M string := call CTitle (w_title w).

Definition is_visible (selector : string) : M bool :=
  call (CIsVisible selector) (w_is_visible w selector).

Definition count (selector : string) : M nat :=
  call (CCount selector) (w_count w selector).

(** [page.screenshot(path=..., full_page=...)]; [full_page] is [False]
    when the keyword is not passed. *)
Definition page_screenshot (path : string) (full_page : bool) : M unit :=
  img <- call (CPageScreenshot path full_page) (w_page_screenshot w full_page) ;;
  write_file path img.

Definition locator_screenshot (selector path : string) : M unit :=
  img <- call (CLocatorScreenshot selector path) (w_locator_screenshot w selector) ;;
  write_file path img.

Definition browser_close : M unit := call CClose (w_close w).

(** [with sync_playwright() as p: body] *)
Definition with_sync_playwright {A} (body : M A) : M A :=
  call0 CStart (w_start w) ;; finally body (record CStop None).

(** *** src/verify_setup.py *)

Definition verify : M unit :=
  page_on "console" (fun text => "Console: " +:+ text) ;;
  page_on "pageerror" (fun exc => "Page Error: " +:+ exc) ;;
  try_except
    (goto "http://localhost:5173" ;;
     wait_for_load_state "networkidle" ;;
     title <- page_title ;;
     print ("Page title: " +:+ title) ;;
     sidebar <- is_visible ".sidebar" ;;
     (if sidebar then print "Sidebar is visible"
      else print "Sidebar is NOT visible") ;;
     slider_a <- is_visible "#num-a" ;;
     (if slider_a then print "Slider A is visible" else pass) ;;
     page_screenshot "verification.png" false)
    (fun e => print ("Error during verification: " +:+ exn_str e)).

(** The [__main__] block. *)
Definition verify_setup_main : M unit :=
  with_sync_playwright
    (launch true ["--enable-unsafe-webgpu"] ;;
     new_page ;;
     verify ;;
     browser_close).

(** *** src/verify_visualization.py *)

(** [launch(headless=True)] passes no [args]. *)
Definition verify_visualization : M unit :=
  with_sync_playwright
    (launch true [] ;;
     new_page ;;
     goto "http://localhost:5173" ;;
     sleep 5 ;;
     page_screenshot "verification.png" true ;;
     n <- count "#demo-svg" ;;
     (if (0 <? n)%nat then locator_screenshot "#demo-svg" "verification_svg.png"
      else pass) ;;
     browser_close).

End Scripts.

(** ** Runs *)

(** A run starts with nothing printed, no listener attached and no call
    made; [d] holds the files left by earlier runs. *)
Definition run_setup (w : World) (d : gmap string image) : outcome unit * State :=
  verify_setup_main w (init d).

Definition run_visualization (w : World) (d : gmap string image)
  : outcome unit * State :=
  verify_visualization w (init d).

(** ** Vocabulary of the specification *)

(** The steps of the sequence Launch, Open, Navigate, Check*, Capture*,
    Close, and the step each library call belongs to.  [locator.count] only
    guards the element screenshot, so it counts with the capture. *)
Inductive Step : Type := Launch | Open | Navigate | Check | Capture | Close.

Definition step_of (c : Call) : Step :=
  match c with
  | CStart | CLaunch _ _ => Launch
  | CNewPage | COn _ => Open
  | CGoto _ | CWaitForLoadState _ | CSleep _ => Navigate
  | CTitle | CIsVisible _ => Check
  | CCount _ | CPageScreenshot _ _ | CLocatorScreenshot _ _ => Capture
  | CClose | CStop => Close
  end.

(** Calls of the navigate/check/capture phase. *)
Definition in_phase (c : Call) : bool :=
  match step_of c with
  | Navigate | Check | Capture => true
  | _ => false
  end.

Definition is_close (en : Entry) : bool :=
  match fst en with CClose => true | _ => false end.

Definition is_stop (en : Entry) : bool :=
  match fst en with CStop => true | _ => false end.

(** Number of [browser.close()] calls made. *)
Definition closes (t : list Entry) : nat := length (filter is_close t).

(** Number of exits of the [with sync_playwright()] block. *)
Definition stops (t : list Entry) : nat := length (filter is_stop t).

(** [sub] occurs in [line]. *)
Definition contains (sub line : string) : Prop :=
  exists pre suf, line = pre +:+ sub +:+ suf.

(** Some printed line contains the description of [e]. *)
Definition reported (e : exn) (log : list string) : Prop :=
  exists line, In line log /\ contains (exn_str e) line.

(** The line a listener of [verify] prints for an event. *)
Definition rendered (ev : ObservedEvent) : string :=
  match ev with
  | ConsoleMessage text => "Console: " +:+ text
  | PageError message => "Page Error: " +:+ message
  end.

(** ** Sample worlds *)

Definition quiet {A} (a : A) : reply A := Reply [] (Returned a).

Definition png : image := [Byte.x89; Byte.x50; Byte.x4e; Byte.x47].

(** The dev server serves a page titled "Demo" on which everything asked
    for is there and visible; the page logs to the console while loading. *)
Definition w_demo : World :=
  {| w_start := Returned tt;
     w_launch := fun _ _ => Returned tt;
     w_new_page := Returned tt;
     w_goto := fun _ => Reply [ConsoleMessage "ready"; PageError "boom"] (Returned tt);
     w_wait_for_load_state := fun _ => quiet tt;
     w_title := quiet "Demo";
     w_is_visible := fun _ => quiet true;
     w_count := fun _ => quiet 1;
     w_page_screenshot := fun _ => quiet png;
     w_locator_screenshot := fun _ => quiet png;
     w_close := quiet tt |}.

Definition refused : exn := Exn true "net::ERR_CONNECTION_REFUSED".

(** Nothing listens on port 5173. *)
Definition w_unreachable : World :=
  {| w_start := Returned tt;
     w_launch := fun _ _ => Returned tt;
     w_new_page := Returned tt;
     w_goto := fun _ => Reply [] (Raised refused);
     w_wait_for_load_state := w_wait_for_load_state w_demo;
     w_title := w_title w_demo;
     w_is_visible := w_is_visible w_demo;
     w_count := w_count w_demo;
     w_page_screenshot := w_page_screenshot w_demo;
     w_locator_screenshot := w_locator_screenshot w_demo;
     w_close := quiet tt |}.

(** The page of [w_demo] without [#demo-svg] and with [#num-a] hidden. *)
Definition w_bare : World :=
  {| w_start := Returned tt;
     w_launch := fun _ _ => Returned tt;
     w_new_page := Returned tt;
     w_goto := w_goto w_demo;
     w_wait_for_load_state := w_wait_for_load_state w_demo;
     w_title := w_title w_demo;
     w_is_visible := fun sel => quiet (negb (String.eqb sel "#num-a"));
     w_count := fun _ => quiet 0;
     w_page_screenshot := w_page_screenshot w_demo;
     w_locator_screenshot := w_locator_screenshot w_demo;
     w_close := quiet tt |}.

(** The element screenshot fails after the page screenshot was written. *)
Definition w_late_failure : World :=
  {| w_start := Returned tt;
     w_launch := fun _ _ => Returned tt;
     w_new_page := Returned tt;
     w_goto := w_goto w_demo;
     w_wait_for_load_state := w_wait_for_load_state w_demo;
     w_title := w_title w_demo;
     w_is_visible := w_is_visible w_demo;
     w_count := w_count w_demo;
     w_page_screenshot := w_page_screenshot w_demo;
     w_locator_screenshot := fun _ => Reply [] (Raised (Exn true "Target closed"));
     w_close := quiet tt |}.

(** [KeyboardInterrupt()], whose [str] is empty. *)
Definition interrupt : exn := Exn false "".

(** The run is interrupted from the keyboard while the page loads. *)
Definition w_interrupted : World :=
  {| w_start := Returned tt;
     w_launch := fun _ _ => Returned tt;
     w_new_page := Returned tt;
     w_goto := fun _ => Reply [] (Raised interrupt);
     w_wait_for_load_state := w_wait_for_load_state w_demo;
     w_title := w_title w_demo;
     w_is_visible := w_is_visible w_demo;
     w_count := w_count w_demo;
     w_page_screenshot := w_page_screenshot w_demo;
     w_locator_screenshot := w_locator_screenshot w_demo;
     w_close := quiet tt |}.

(** The page of [w_demo], but the [.sidebar] check fails. *)
Definition w_sidebar_fails : World :=
  {| w_start := Returned tt;
     w_launch := fun _ _ => Returned tt;
     w_new_page := Returned tt;
     w_goto := w_goto w_demo;
     w_wait_for_load_state := w_wait_for_load_state w_demo;
     w_title := w_title w_demo;
     w_is_visible := fun sel =>
       if String.eqb sel ".sidebar"
       then Reply [] (Raised (Exn true "Page crashed"))
       else quiet true;
     w_count := w_count w_demo;
     w_page_screenshot := w_page_screenshot w_demo;
     w_locator_screenshot := w_locator_screenshot w_demo;
     w_close := quiet tt |}.

(** ** The claims as predicates on runs *)

(** The runner, started on a fresh state, returns normally, and every
    exception raised by a call of the navigate/check/capture phase is
    reported on stdout. *)
Definition contained (runner : M unit) (d : gmap string image) : Prop :=
  let r := runner (init d) in
  fst r = Returned tt /\
  forall c e, In (c, Some e) (trace (snd r)) -> in_phase c = true ->
              reported e (stdout (snd r)).

Definition launched (t : list Entry) : Prop :=
  exists headless args, In (CLaunch headless args, None) t.

(** The browser that was launched has been closed exactly once. *)
Definition closed_once (r : outcome unit * State) : Prop :=
  launched (trace (snd r)) -> closes (trace (snd r)) = 1.

(** Some call other than [browser.close()] raised. *)
Definition failed_before_close (t : list Entry) : bool :=
  existsb (fun en => match en with
                     | (CClose, _) | (_, None) => false
                     | (_, Some _) => true
                     end) t.

(** The element capture was skipped and logged, the run returned, and
    [verification_svg.png] does not exist afterwards. *)
Definition skipped_and_logged (r : outcome unit * State) : Prop :=
  (forall sel path o, ~ In (CLocatorScreenshot sel path, o) (trace (snd r))) /\
  stdout (snd r) <> [] /\
  fst r = Returned tt /\
  disk (snd r) !! "verification_svg.png" = None.

(** Both observers were attached before [page.goto] was called. *)
Definition observers_before_navigation (t : list Entry) : Prop :=
  forall pre url o post, t = (pre ++ (CGoto url, o) :: post)%list ->
    In (COn "console", None) pre /\ In (COn "pageerror", None) pre.

(** [P pre x] for every element [x] of [l] and the elements [pre] before it,
    where [seen] came before [l]. *)
Fixpoint each_after {A} (P : list A -> A -> Prop) (seen l : list A) : Prop :=
  match l with
  | [] => True
  | x :: rest => P seen x /\ each_after P (seen ++ [x])%list rest
  end.

(** An element as a visibility check sees it. *)
Record Element : Type := { hidden : bool }.

(** Modelled from the spec: [check_visible(page, selector) -> bool], which
    "queries the DOM; returns false (not an error) if the element is absent
    or hidden".  The scripts get this answer from Playwright's
    [locator.is_visible], whose code is not in the repository.  The page is
    the map from selectors to the element each one selects. *)
Definition check_visible (page : gmap string Element) (selector : string) : bool :=
  match page !! selector with
  | None => false
  | Some el => negb (hidden el)
  end.

(** Every check and capture call comes after [page.goto] and the wait that
    follows it have both returned. *)
Definition navigated_first (wait : Call) (t : list Entry) : Prop :=
  forall pre c o post, t = (pre ++ (c, o) :: post)%list ->
    step_of c = Check \/ step_of c = Capture ->
    In (CGoto "http://localhost:5173", None) pre /\ In (wait, None) pre.

(** No capture call comes before a check. *)
Definition checks_before_captures (t : list Entry) : Prop :=
  forall pre c o post, t = (pre ++ (c, o) :: post)%list ->
    step_of c = Check ->
    forall c' o', In (c', o') pre -> step_of c' <> Capture.

(** A page screenshot covers the full page only when [full_page] is set;
    an element screenshot is scoped to its element. *)
Definition full_page_or_element (c : Call) : Prop :=
  match c with
  | CPageScreenshot _ full_page => full_page = true
  | _ => True
  end.

(** Every screenshot taken is a full-page or an element capture. *)
Definition captures_scoped (t : list Entry) : Prop :=
  forall c o, In (c, o) t -> full_page_or_element c.

(** Running [m] removes no file. *)
Definition keeps_files {A} (m : M A) : Prop :=
  forall s p, is_Some (disk s !! p) -> is_Some (disk (snd (m s)) !! p).

(** Where a line of [verify]'s output can come from, the slider check
    left aside. *)
Definition from_elsewhere (line : string) : Prop :=
  (exists ev, line = rendered ev) \/
  (exists title, line = "Page title: " +:+ title) \/
  line = "Sidebar is visible" \/
  line = "Sidebar is NOT visible" \/
  (exists e, line = "Error during verification: " +:+ exn_str e).

(** ** Predicates for further properties of the scripts *)

(** The log of a run of verify_setup.py in which every call returns. *)
Definition setup_log (w : World) (title : string) (sidebar slider_a : bool)
  : list string :=
  (map rendered (during (w_goto w "http://localhost:5173")) ++
   map rendered (during (w_wait_for_load_state w "networkidle")) ++
   map rendered (during (w_title w)) ++
   ["Page title: " +:+ title] ++
   map rendered (during (w_is_visible w ".sidebar")) ++
   [if sidebar then "Sidebar is visible" else "Sidebar is NOT visible"] ++
   map rendered (during (w_is_visible w "#num-a")) ++
   (if slider_a then ["Slider A is visible"] else []) ++
   map rendered (during (w_page_screenshot w false)) ++
   map rendered (during (w_close w)))%list.

(** The position of a step in the sequence Launch, Open, Navigate, Check*,
    Capture*, Close. *)
Definition rank (st : Step) : nat :=
  match st with
  | Launch => 0
  | Open => 1
  | Navigate => 2
  | Check => 3
  | Capture => 4
  | Close => 5
  end.

(** No call is made after a call of a later step. *)
Definition steps_in_order (t : list Entry) : Prop :=
  forall pre en post, t = (pre ++ en :: post)%list ->
    forall en', In en' pre ->
      rank (step_of (fst en')) <= rank (step_of (fst en)).

(** The navigation calls made, in order. *)
Definition navigation (t : list Entry) : list Call :=
  List.filter (fun c => match step_of c with Navigate => true | _ => false end)
              (map fst t).

(** The demo scenario as the specification words it: a page titled "Demo"
    with a visible [#num-a] gives the two log lines and a non-empty
    [verification.png]. *)
Definition demo_claim (w : World) (r : outcome unit * State) : Prop :=
  answer (w_title w) = Returned "Demo" ->
  answer (w_is_visible w "#num-a") = Returned true ->
  In "Page title: Demo" (stdout (snd r)) /\
  In "Slider A is visible" (stdout (snd r)) /\
  exists file, disk (snd r) !! "verification.png" = Some file /\ file <> [].

(** What a finished call left in the trace. *)
Definition raised_by {A} (o : outcome A) : option exn :=
  match o with
  | Returned _ => None
  | Raised e => Some e
  end.

(** The calls of a run of verify_setup.py in which everything up to the
    screenshot returns. *)
Definition demo_trace (w : World) : list Entry :=
  [(CStart, None); (CLaunch true ["--enable-unsafe-webgpu"], None);
   (CNewPage, None); (COn "console", None); (COn "pageerror", None);
   (CGoto "http://localhost:5173", None);
   (CWaitForLoadState "networkidle", None); (CTitle, None);
   (CIsVisible ".sidebar", None); (CIsVisible "#num-a", None);
   (CPageScreenshot "verification.png" false, None);
   (CClose, raised_by (answer (w_close w))); (CStop, None)].

(** The log of verify_setup.py up to and including the [#num-a] check, when
    that check is reached and answers [slider_a]. *)
Definition checks_log (w : World) (title : string) (sidebar slider_a : bool)
  : list string :=
  (map rendered (during (w_goto w "http://localhost:5173")) ++
   map rendered (during (w_wait_for_load_state w "networkidle")) ++
   map rendered (during (w_title w)) ++
   ["Page title: " +:+ title] ++
   map rendered (during (w_is_visible w ".sidebar")) ++
   [if sidebar then "Sidebar is visible" else "Sidebar is NOT visible"] ++
   map rendered (during (w_is_visible w "#num-a")) ++
   (if slider_a then ["Slider A is visible"] else []))%list.

(** The log of verify_setup.py from the screenshot on. *)
Definition capture_log (w : World) : list string :=
  (map rendered (during (w_page_screenshot w false)) ++
   match answer (w_page_screenshot w false) with
   | Returned _ => map rendered (during (w_close w))
   | Raised e =>
       if is_Exception e
       then ("Error during verification: " +:+ exn_str e)
              :: map rendered (during (w_close w))
       else []
   end)%list.

(** ** Sanity checks of the embedding *)

Example demo_setup_log :
  stdout (snd (run_setup w_demo ∅)) =
  ["Console: ready"; "Page Error: boom"; "Page title: Demo";
   "Sidebar is visible"; "Slider A is visible"].
Proof. reflexivity. Qed.

Example demo_setup_trace :
  map fst (trace (snd (run_setup w_demo ∅))) =
  [CStart; CLaunch true ["--enable-unsafe-webgpu"]; CNewPage;
   COn "console"; COn "pageerror"; CGoto "http://localhost:5173";
   CWaitForLoadState "networkidle"; CTitle; CIsVisible ".sidebar";
   CIsVisible "#num-a"; CPageScreenshot "verification.png" false;
   CClose; CStop].
Proof. reflexivity. Qed.

Example demo_visualization_trace :
  map fst (trace (snd (run_visualization w_demo ∅))) =
  [CStart; CLaunch true []; CNewPage; CGoto "http://localhost:5173";
   CSleep 5; CPageScreenshot "verification.png" true; CCount "#demo-svg";
   CLocatorScreenshot "#demo-svg" "verification_svg.png"; CClose; CStop].
Proof. reflexivity. Qed.

Example unreachable_setup :
  run_setup w_unreachable ∅ =
  (Returned tt,
   {| stdout := ["Error during verification: net::ERR_CONNECTION_REFUSED"];
      disk := ∅;
      listeners := [("console", fun text => "Console: " +:+ text);
                    ("pageerror", fun exc => "Page Error: " +:+ exc)];
      trace := [(CStart, None); (CLaunch true ["--enable-unsafe-webgpu"], None);
                (CNewPage, None); (COn "console", None); (COn "pageerror", None);
                (CGoto "http://localhost:5173", Some refused);
                (CClose, None); (CStop, None)] |}).
Proof. reflexivity. Qed.

(** ** Symbolic execution of the scripts *)

Ltac unfold_script :=
  cbv [run_setup run_visualization verify_setup_main verify_visualization verify
       with_sync_playwright launch new_page page_on goto wait_for_load_state
       sleep page_title is_visible count page_screenshot locator_screenshot
       browser_close call call0 dispatch record print write_file pass raise
       ret bind try_except finally init].

Ltac reduce := cbv beta iota zeta delta [stdout disk listeners trace fst snd].

(** One library answer: use what is known about it, else split on it. *)
Ltac step :=
  match goal with
  | H : ?o = _ |- context [match ?o with Returned _ => _ | Raised _ => _ end] =>
      rewrite H; reduce
  | |- context [match ?o with Returned _ => _ | Raised _ => _ end] =>
      destruct o eqn:?; reduce
  | H : ?b = _ |- context [if ?b then _ else _] => rewrite H; reduce
  | |- context [if ?b then _ else _] =>
      let v := eval vm_compute in b in
      match v with
      | true => idtac
      | false => idtac
      end;
      change b with v; reduce
  | |- context [if ?b then _ else _] => destruct b eqn:?; reduce
  end.

(** Execute the run [r] on every path through it; what the goal says about
    [r] is set aside meanwhile. *)
Ltac run_on r :=
  pattern r;
  match goal with
  | |- ?P r =>
      let Q := fresh "Q" in
      set (Q := P); unfold_script; reduce; repeat step;
      subst Q; cbv beta; cbn [app fst snd stdout disk listeners trace]
  end.

Ltac run_script :=
  match goal with
  | |- context [run_setup ?w ?d] => run_on (run_setup w d)
  | |- context [run_visualization ?w ?d] => run_on (run_visualization w d)
  | |- context [verify ?w (init ?d)] => run_on (verify w (init d))
  end.

(** Membership of a given entry in an explicit trace. *)
Ltac entry_cases H :=
  simpl in H;
  repeat (destruct H as [H | H]; [try discriminate H; try (injection H as <- <-) |]);
  try contradiction.

(** Find a line in a log given as a concatenation. *)
Ltac in_log :=
  match goal with
  | |- In _ (_ ++ _) =>
      apply in_or_app; first [solve [right; in_log] | solve [left; in_log]]
  | |- In _ (_ :: _) => first [solve [left; reflexivity] | solve [right; in_log]]
  | |- In _ _ => assumption
  end.

(** ** Event dispatch *)

(** With no listener attached, events print nothing. *)
Lemma unheard (evs : list ObservedEvent) : flat_map (handle []) evs = [].
Proof. induction evs as [| ev evs IH]; simpl; [reflexivity | exact IH]. Qed.

(** With the two listeners of [verify] attached, each event prints its line. *)
Lemma heard (evs : list ObservedEvent) :
  flat_map (handle [("console", fun text => "Console: " +:+ text);
                    ("pageerror", fun exc => "Page Error: " +:+ exc)]) evs
  = map rendered evs.
Proof.
  induction evs as [| ev evs IH]; [reflexivity |].
  simpl flat_map at 1. rewrite IH. now destruct ev.
Qed.

(** ** Exceptions and the handlers around them *)

(** With a handler that cannot fail, only what is not an [Exception] leaves
    the [try] statement. *)
Lemma try_except_lets_through {A} (body : M A) (handler : exn -> M A)
  (s s' : State) (e : exn) :
  (forall e1 s1, exists a s2, handler e1 s1 = (Returned a, s2)) ->
  try_except body handler s = (Raised e, s') -> is_Exception e = false.
Proof.
  intros Hh. unfold try_except.
  destruct (body s) as [[a | e0] s1]; [discriminate |].
  destruct (is_Exception e0) eqn:Hclass.
  - destruct (Hh e0 s1) as (a & s2 & ->). discriminate.
  - intros [= <- _]. exact Hclass.
Qed.

Lemma page_on_returns (event : string) (h : string -> string) (s : State) :
  exists s', page_on event h s = (Returned tt, s').
Proof. unfold page_on, record. eauto. Qed.

Lemma verify_raises_no_Exception (w : World) (s : State) (e : exn) :
  fst (verify w s) = Raised e -> is_Exception e = false.
Proof.
  unfold verify, bind at 1 2.
  destruct (page_on_returns "console" (fun t => "Console: " +:+ t) s) as [s1 ->].
  destruct (page_on_returns "pageerror" (fun t => "Page Error: " +:+ t) s1) as [s2 ->].
  match goal with
  | |- fst (try_except ?b ?h s2) = _ -> _ =>
      destruct (try_except b h s2) as [r s3] eqn:Htry; simpl; intros ->;
      apply (try_except_lets_through b h s2 s3 e); [| exact Htry]
  end.
  intros e1 s4. exists tt. unfold print. eauto.
Qed.

(** C1, as the specification has it, fails on [verify_visualization]: with
    the dev server down, [page.goto] raises, nothing catches it and nothing
    is printed. *)
Lemma C1_visualization_propagates :
  ~ contained (verify_visualization w_unreachable) ∅.
Proof. intros [H _]. vm_compute in H. discriminate H. Qed.

(** What [Hall] says of the call that raised something else than an
    [Exception] contradicts how it raised. *)
Ltac by_class Hall :=
  exfalso;
  match goal with
  | Hne : is_Exception ?e = false |- _ =>
      assert (is_Exception e = true) by (eapply Hall; [in_log | discriminate]);
      congruence
  end.

(** C1 (amended): in [verify] of verify_setup.py an exception that is an
    instance of [Exception], raised by a navigate, check or capture call, is
    caught: [verify] returns and the last line it printed is exactly
    [Error during verification: <str(e)>].  An exception that is not an
    instance of [Exception] leaves [verify] as raised; nothing else ever
    leaves it, from any state, and it returns when no call raised.
    [verify_visualization] has no handler: an exception raised by any of its
    calls leaves it as raised and nothing is printed. *)
Theorem C1_verify_contains_exceptions (w : World) (d : gmap string image) :
  (forall s e, fst (verify w s) = Raised e -> is_Exception e = false) /\
  (forall c e, In (c, Some e) (trace (snd (verify w (init d)))) ->
     is_Exception e = true ->
     fst (verify w (init d)) = Returned tt /\
     exists before,
       stdout (snd (verify w (init d))) =
       (before ++ ["Error during verification: " +:+ exn_str e])%list) /\
  (forall c e, In (c, Some e) (trace (snd (verify w (init d)))) ->
     is_Exception e = false ->
     fst (verify w (init d)) = Raised e) /\
  ((forall c e, ~ In (c, Some e) (trace (snd (verify w (init d))))) ->
   fst (verify w (init d)) = Returned tt) /\
  (forall c e, In (c, Some e) (trace (snd (run_visualization w d))) ->
               fst (run_visualization w d) = Raised e /\
               stdout (snd (run_visualization w d)) = []).
Proof.
  split; [apply verify_raises_no_Exception |]. split; [| split; [| split]].
  - intros c e. run_script; intros Hin Hclass; entry_cases Hin;
      try congruence; (split; [reflexivity | eexists; reflexivity]).
  - intros c e. run_script; intros Hin Hclass; entry_cases Hin;
      solve [reflexivity | congruence].
  - run_script; intros Hnone; try reflexivity; exfalso; eapply Hnone; in_log.
  - intros c e. run_script; intros Hin; entry_cases Hin;
      rewrite ?unheard; auto.
Qed.

Lemma C1_verify_contains_exceptions_witness :
  (exists before,
     stdout (snd (verify w_unreachable (init ∅))) =
     (before ++ ["Error during verification: net::ERR_CONNECTION_REFUSED"])%list) /\
  fst (verify w_interrupted (init ∅)) = Raised interrupt /\
  fst (run_visualization w_unreachable ∅) = Raised refused.
Proof.
  split; [| split].
  - apply (proj1 (proj2 (C1_verify_contains_exceptions w_unreachable ∅))
             (CGoto "http://localhost:5173") refused).
    + vm_compute. auto 12.
    + reflexivity.
  - apply (proj1 (proj2 (proj2 (C1_verify_contains_exceptions w_interrupted ∅)))
             (CGoto "http://localhost:5173") interrupt).
    + vm_compute. auto 12.
    + reflexivity.
  - apply (proj2 (proj2 (proj2 (proj2
             (C1_verify_contains_exceptions w_unreachable ∅))))
             (CGoto "http://localhost:5173") refused).
    vm_compute. auto 12.
Defined.

(** ** Closing the browser *)

(** C2, as the specification has it, fails on [verify_visualization]: with
    the dev server down the browser is launched and [browser.close()] is
    never called. *)
Lemma C2_visualization_skips_close :
  ~ closed_once (run_visualization w_unreachable ∅).
Proof.
  intros H. assert (Hl : launched (trace (snd (run_visualization w_unreachable ∅)))).
  { exists true, []. vm_compute. auto 12. }
  apply H in Hl. vm_compute in Hl. discriminate Hl.
Qed.

(** C2 (amended): in verify_setup.py, once [new_page] has returned,
    [browser.close()] is called exactly once provided every exception raised
    by navigation, the checks and the capture is an instance of [Exception];
    when one of them raises anything else, it passes [except Exception] and
    [browser.close()] is not called.  In verify_visualization.py it is
    called exactly once when every call before it returns and not at all
    when one of them raises.  In both scripts the [with sync_playwright()]
    block is left exactly once on every path. *)
Theorem C2_close_calls (w : World) (d : gmap string image) :
  (In (CNewPage, None) (trace (snd (run_setup w d))) ->
   (forall c e, In (c, Some e) (trace (snd (run_setup w d))) -> c <> CClose ->
                is_Exception e = true) ->
   closes (trace (snd (run_setup w d))) = 1) /\
  (forall c e, In (c, Some e) (trace (snd (run_setup w d))) -> c <> CClose ->
     is_Exception e = false ->
     closes (trace (snd (run_setup w d))) = 0) /\
  closes (trace (snd (run_visualization w d))) =
    (if failed_before_close (trace (snd (run_visualization w d))) then 0 else 1) /\
  (In (CStart, None) (trace (snd (run_setup w d))) ->
   stops (trace (snd (run_setup w d))) = 1) /\
  (In (CStart, None) (trace (snd (run_visualization w d))) ->
   stops (trace (snd (run_visualization w d))) = 1).
Proof.
  split; [| split; [| split; [| split]]].
  - run_script; intros Hin Hall; try reflexivity;
      first [solve [entry_cases Hin] | by_class Hall].
  - intros c e. run_script; intros Hin Hne Hclass; try reflexivity;
      entry_cases Hin; congruence.
  - run_script; reflexivity.
  - run_script; intros Hin; try reflexivity; entry_cases Hin.
  - run_script; intros Hin; try reflexivity; entry_cases Hin.
Qed.

Lemma C2_close_calls_witness :
  closes (trace (snd (run_setup w_unreachable ∅))) = 1 /\
  closes (trace (snd (run_setup w_interrupted ∅))) = 0 /\
  stops (trace (snd (run_visualization w_unreachable ∅))) = 1.
Proof.
  split; [| split].
  - apply (proj1 (C2_close_calls w_unreachable ∅)).
    + vm_compute. auto 12.
    + intros c e Hin _. vm_compute in Hin.
      repeat (destruct Hin as [Hin | Hin];
              [try discriminate Hin; injection Hin as _ <-; reflexivity |]).
      contradiction.
  - apply (proj1 (proj2 (C2_close_calls w_interrupted ∅))
             (CGoto "http://localhost:5173") interrupt).
    + vm_compute. auto 12.
    + discriminate.
    + reflexivity.
  - apply (proj2 (proj2 (proj2 (proj2 (C2_close_calls w_unreachable ∅))))).
    vm_compute. auto 12.
Defined.

(** ** The element capture *)

(** C3, as the specification has it, fails on the logging: when [#demo-svg]
    matches nothing the capture is skipped without a word. *)
Lemma C3_skip_is_silent :
  answer (w_count w_bare "#demo-svg") = Returned 0 /\
  ~ skipped_and_logged (run_visualization w_bare ∅).
Proof.
  split; [reflexivity |]. intros (_ & Hlog & _). apply Hlog. reflexivity.
Qed.

(** C3 (amended): when [#demo-svg] matches zero nodes, the element capture
    is skipped silently: [locator.screenshot] is never called,
    [verification_svg.png] is left as it was before the run, nothing is
    printed, and once the count has returned the run ends the way
    [browser.close()] ends. *)
Theorem C3_absent_element_skipped (w : World) (d : gmap string image)
  (Hnone : answer (w_count w "#demo-svg") = Returned 0) :
  (forall sel path o,
     ~ In (CLocatorScreenshot sel path, o) (trace (snd (run_visualization w d)))) /\
  disk (snd (run_visualization w d)) !! "verification_svg.png"
    = d !! "verification_svg.png" /\
  stdout (snd (run_visualization w d)) = [] /\
  (In (CCount "#demo-svg", None) (trace (snd (run_visualization w d))) ->
   fst (run_visualization w d) = answer (w_close w)).
Proof.
  repeat split.
  - intros sel path o. run_script; intros Hin; entry_cases Hin.
  - run_script; try reflexivity; now rewrite lookup_insert_ne.
  - run_script; now rewrite ?unheard.
  - run_script; intros Hin; try reflexivity; entry_cases Hin.
Qed.

Lemma C3_absent_element_skipped_witness :
  stdout (snd (run_visualization w_bare ∅)) = [] /\
  disk (snd (run_visualization w_bare ∅)) !! "verification_svg.png" = None.
Proof.
  destruct (C3_absent_element_skipped w_bare ∅ eq_refl) as (_ & Hdisk & Hlog & _).
  split; [exact Hlog | exact Hdisk].
Defined.


(** ** Observers *)

Lemma each_after_split {A} (P : list A -> A -> Prop) (l seen : list A) :
  each_after P seen l ->
  forall pre x post, l = (pre ++ x :: post)%list -> P (seen ++ pre)%list x.
Proof.
  revert seen. induction l as [| a l IH]; intros seen H pre x post E.
  - now destruct pre.
  - destruct H as [Ha Hl]. destruct pre as [| b pre]; simpl in E.
    + injection E as -> _. now rewrite app_nil_r.
    + injection E as -> E. specialize (IH _ Hl _ _ _ E).
      now rewrite <- app_assoc in IH.
Qed.

(** C4, as the specification has it, fails on [verify_visualization]: it
    navigates without ever attaching an observer. *)
Lemma C4_visualization_has_no_observers :
  ~ observers_before_navigation (trace (snd (run_visualization w_demo ∅))).
Proof.
  intros H.
  destruct (H [(CStart, None); (CLaunch true [], None); (CNewPage, None)]
              "http://localhost:5173" None
              [(CSleep 5, None); (CPageScreenshot "verification.png" true, None);
               (CCount "#demo-svg", None);
               (CLocatorScreenshot "#demo-svg" "verification_svg.png", None);
               (CClose, None); (CStop, None)] eq_refl) as [Hc _].
  entry_cases Hc.
Qed.

(** C4 (amended): verify_setup.py attaches the console and the page-error
    observer before it calls [page.goto], and every event the page emits
    during [page.goto] or [page.wait_for_load_state] is printed;
    verify_visualization.py attaches no observer and prints nothing. *)
Theorem C4_observers_attached_in_setup (w : World) (d : gmap string image) :
  observers_before_navigation (trace (snd (run_setup w d))) /\
  (forall url o ev, In (CGoto url, o) (trace (snd (run_setup w d))) ->
     In ev (during (w_goto w url)) ->
     In (rendered ev) (stdout (snd (run_setup w d)))) /\
  (forall state o ev,
     In (CWaitForLoadState state, o) (trace (snd (run_setup w d))) ->
     In ev (during (w_wait_for_load_state w state)) ->
     In (rendered ev) (stdout (snd (run_setup w d)))) /\
  (forall event o, ~ In (COn event, o) (trace (snd (run_visualization w d)))) /\
  stdout (snd (run_visualization w d)) = [].
Proof.
  split; [| split; [| split; [| split]]].
  - intros pre url o post E.
    assert (H : each_after
                  (fun seen en => forall u r, en = (CGoto u, r) ->
                     In (COn "console", None) seen /\
                     In (COn "pageerror", None) seen)
                  [] (trace (snd (run_setup w d)))).
    { clear. run_script; cbn [each_after app]; repeat split; intros;
        try discriminate; in_log. }
    exact (@each_after_split _ _ _ _ H pre _ post E url o eq_refl).
  - intros url o ev Hin Hev. apply (in_map rendered) in Hev. revert Hin Hev.
    run_script; intros Hin; entry_cases Hin; rewrite ?heard; intros Hev; in_log.
  - intros state o ev Hin Hev. apply (in_map rendered) in Hev. revert Hin Hev.
    run_script; intros Hin; entry_cases Hin; rewrite ?heard; intros Hev; in_log.
  - intros event o. run_script; intros Hin; entry_cases Hin.
  - run_script; now rewrite ?unheard.
Qed.

Lemma C4_observers_attached_in_setup_witness :
  In "Console: ready" (stdout (snd (run_setup w_demo ∅))).
Proof.
  apply (proj1 (proj2 (C4_observers_attached_in_setup w_demo ∅))
           "http://localhost:5173" None (ConsoleMessage "ready"));
    vm_compute; auto 12.
Defined.

(** ** Visibility of an element *)

(** C5: [check_visible] answers [false], and being a total function into
    [bool] raises nothing, exactly when the selected element is absent or
    hidden. *)
Theorem C5_check_visible_false (page : gmap string Element) (selector : string) :
  page !! selector = None \/
  (exists el, page !! selector = Some el /\ hidden el = true) <->
  check_visible page selector = false.
Proof.
  unfold check_visible. split.
  - intros [-> | (el & -> & ->)]; reflexivity.
  - destruct (page !! selector) as [el |]; [| now left].
    intros H. right. exists el. split; [reflexivity |].
    now destruct (hidden el).
Qed.

Lemma C5_check_visible_false_witness :
  check_visible ∅ "#num-a" = false /\
  check_visible {[ "#num-a" := {| hidden := true |} ]} "#num-a" = false.
Proof.
  split.
  - apply (proj1 (C5_check_visible_false ∅ "#num-a")). now left.
  - apply (proj1 (C5_check_visible_false
                    {[ "#num-a" := {| hidden := true |} ]} "#num-a")).
    right. exists {| hidden := true |}. split; reflexivity.
Defined.

(** ** Order of the steps *)

Ltac ordered :=
  run_script; cbn [each_after app]; repeat split; intros;
  repeat match goal with
         | H : _ \/ _ |- _ => destruct H
         | H : In _ _ |- _ => entry_cases H
         end;
  try discriminate; first [in_log | simpl; auto 12].

(** Every earlier call belongs to the same or an earlier step. *)
Ltac ranked :=
  run_script; cbn [each_after app]; repeat split; intros en' Hin;
  simpl in Hin;
  repeat (destruct Hin as [<- | Hin]; [cbn; repeat constructor |]);
  contradiction.

(** C6: in both scripts every check and every capture call is made after
    [page.goto] and the wait after it ([wait_for_load_state("networkidle")],
    respectively [time.sleep(5)]) have returned, and no capture is made
    before a check.  More than that, the calls of a run follow the sequence
    Launch, Open, Navigate, Check*, Capture*, Close: none is made after a
    call of a later step, and the navigation calls are [page.goto] and then
    the wait, each at most once. *)
Theorem C6_navigate_then_check_then_capture (w : World) (d : gmap string image) :
  navigated_first (CWaitForLoadState "networkidle") (trace (snd (run_setup w d))) /\
  navigated_first (CSleep 5) (trace (snd (run_visualization w d))) /\
  checks_before_captures (trace (snd (run_setup w d))) /\
  checks_before_captures (trace (snd (run_visualization w d))) /\
  steps_in_order (trace (snd (run_setup w d))) /\
  steps_in_order (trace (snd (run_visualization w d))) /\
  (exists rest, [CGoto "http://localhost:5173"; CWaitForLoadState "networkidle"]
                = (navigation (trace (snd (run_setup w d))) ++ rest)%list) /\
  (exists rest, [CGoto "http://localhost:5173"; CSleep 5]
                = (navigation (trace (snd (run_visualization w d))) ++ rest)%list).
Proof.
  split; [| split; [| split; [| split; [| split; [| split; [| split]]]]]].
  - intros pre c o post E Hc.
    assert (H : each_after
                  (fun seen en => step_of (fst en) = Check \/ step_of (fst en) = Capture ->
                     In (CGoto "http://localhost:5173", None) seen /\
                     In (CWaitForLoadState "networkidle", None) seen)
                  [] (trace (snd (run_setup w d)))) by (clear; ordered).
    exact (@each_after_split _ _ _ _ H pre _ post E Hc).
  - intros pre c o post E Hc.
    assert (H : each_after
                  (fun seen en => step_of (fst en) = Check \/ step_of (fst en) = Capture ->
                     In (CGoto "http://localhost:5173", None) seen /\
                     In (CSleep 5, None) seen)
                  [] (trace (snd (run_visualization w d)))) by (clear; ordered).
    exact (@each_after_split _ _ _ _ H pre _ post E Hc).
  - intros pre c o post E Hc.
    assert (H : each_after
                  (fun seen en => step_of (fst en) = Check ->
                     forall c' o', In (c', o') seen -> step_of c' <> Capture)
                  [] (trace (snd (run_setup w d)))) by (clear; ordered).
    exact (@each_after_split _ _ _ _ H pre _ post E Hc).
  - intros pre c o post E Hc.
    assert (H : each_after
                  (fun seen en => step_of (fst en) = Check ->
                     forall c' o', In (c', o') seen -> step_of c' <> Capture)
                  [] (trace (snd (run_visualization w d)))) by (clear; ordered).
    exact (@each_after_split _ _ _ _ H pre _ post E Hc).
  - intros pre en post E.
    assert (H : each_after
                  (fun seen x => forall en', In en' seen ->
                     rank (step_of (fst en')) <= rank (step_of (fst x)))
                  [] (trace (snd (run_setup w d)))) by (clear; ranked).
    exact (@each_after_split _ _ _ _ H pre _ post E).
  - intros pre en post E.
    assert (H : each_after
                  (fun seen x => forall en', In en' seen ->
                     rank (step_of (fst en')) <= rank (step_of (fst x)))
                  [] (trace (snd (run_visualization w d)))) by (clear; ranked).
    exact (@each_after_split _ _ _ _ H pre _ post E).
  - run_script; cbn; eexists; reflexivity.
  - run_script; cbn; eexists; reflexivity.
Qed.

Lemma C6_navigate_then_check_then_capture_witness :
  In (CGoto "http://localhost:5173", None)
     [(CStart, @None exn); (CLaunch true [], None); (CNewPage, None);
      (CGoto "http://localhost:5173", None); (CSleep 5, None)] /\
  In (CSleep 5, None)
     [(CStart, @None exn); (CLaunch true [], None); (CNewPage, None);
      (CGoto "http://localhost:5173", None); (CSleep 5, None)].
Proof.
  refine (proj1 (proj2 (C6_navigate_then_check_then_capture w_demo ∅))
           [(CStart, @None exn); (CLaunch true [], None); (CNewPage, None);
            (CGoto "http://localhost:5173", None); (CSleep 5, None)]
           (CPageScreenshot "verification.png" true) (@None exn)
           [(CCount "#demo-svg", None);
            (CLocatorScreenshot "#demo-svg" "verification_svg.png", None);
            (CClose, None); (CStop, None)]
           _ (or_intror eq_refl)).
  vm_compute. reflexivity.
Defined.

(** ** The demo scenario *)

(** C7, as the specification has it, fails: the page is titled "Demo" and
    [#num-a] is visible, but the [.sidebar] check raises, so the rest of the
    [try] block is skipped: no slider line, no screenshot. *)
Lemma C7_sidebar_failure_skips_the_rest :
  ~ demo_claim w_sidebar_fails (run_setup w_sidebar_fails ∅).
Proof.
  intros H. destruct (H eq_refl eq_refl) as (_ & _ & file & Hfile & _).
  vm_compute in Hfile. discriminate Hfile.
Qed.

(** C7 (amended): when the browser starts and every call of verify_setup.py
    up to the screenshot returns (navigation to [http://localhost:5173], the
    network-idle wait, the title query answering "Demo", the [.sidebar]
    check, the [#num-a] check answering true, and the screenshot yielding an
    image), the run makes exactly the calls of [demo_trace], the log has the
    lines [Page title: Demo] and [Slider A is visible], and
    [verification.png] holds exactly that image. *)
Theorem C7_demo_scenario (w : World) (d : gmap string image)
  (sidebar : bool) (img : image)
  (Hstart : w_start w = Returned tt)
  (Hlaunch : w_launch w true ["--enable-unsafe-webgpu"] = Returned tt)
  (Hpage : w_new_page w = Returned tt)
  (Hgoto : answer (w_goto w "http://localhost:5173") = Returned tt)
  (Hidle : answer (w_wait_for_load_state w "networkidle") = Returned tt)
  (Htitle : answer (w_title w) = Returned "Demo")
  (Hsidebar : answer (w_is_visible w ".sidebar") = Returned sidebar)
  (Hslider : answer (w_is_visible w "#num-a") = Returned true)
  (Hshot : answer (w_page_screenshot w false) = Returned img) :
  trace (snd (run_setup w d)) = demo_trace w /\
  In "Page title: Demo" (stdout (snd (run_setup w d))) /\
  In "Slider A is visible" (stdout (snd (run_setup w d))) /\
  disk (snd (run_setup w d)) !! "verification.png" = Some img.
Proof.
  split; [| split; [| split]].
  - unfold demo_trace. run_script; reflexivity.
  - run_script; in_log.
  - run_script; in_log.
  - run_script; apply lookup_insert_eq.
Qed.

Lemma C7_demo_scenario_witness :
  trace (snd (run_setup w_demo ∅)) = demo_trace w_demo /\
  In "Page title: Demo" (stdout (snd (run_setup w_demo ∅))) /\
  In "Slider A is visible" (stdout (snd (run_setup w_demo ∅))) /\
  disk (snd (run_setup w_demo ∅)) !! "verification.png" = Some png.
Proof.
  exact (C7_demo_scenario w_demo ∅ true png eq_refl eq_refl eq_refl eq_refl
           eq_refl eq_refl eq_refl eq_refl eq_refl).
Defined.

(** ** Screenshot files *)

(** C8, as the specification has it, fails on verify_setup.py: its
    screenshot is taken with [full_page] left unset, a capture of the
    viewport that is neither full-page nor scoped to an element. *)
Lemma C8_setup_captures_viewport :
  ~ captures_scoped (trace (snd (run_setup w_demo ∅))).
Proof.
  intros H.
  assert (Hin : In (CPageScreenshot "verification.png" false, None)
                   (trace (snd (run_setup w_demo ∅))))
    by (vm_compute; auto 12).
  apply H in Hin. unfold full_page_or_element in Hin. discriminate Hin.
Qed.

(** C8 (amended): verify_setup.py takes one page screenshot with [full_page]
    unset, to [verification.png]; verify_visualization.py takes a full-page
    screenshot to [verification.png] and a screenshot of the element
    [#demo-svg] to [verification_svg.png].  No other path is written, and
    each of these three screenshots, once it returned, replaces whatever its
    file held before. *)
Theorem C8_fixed_capture_targets (w : World) (d : gmap string image) :
  (forall c o, In (c, o) (trace (snd (run_setup w d))) -> step_of c = Capture ->
     c = CPageScreenshot "verification.png" false) /\
  (forall c o, In (c, o) (trace (snd (run_visualization w d))) ->
     step_of c = Capture ->
     c = CPageScreenshot "verification.png" true \/
     c = CCount "#demo-svg" \/
     c = CLocatorScreenshot "#demo-svg" "verification_svg.png") /\
  (forall p, p <> "verification.png" -> p <> "verification_svg.png" ->
     disk (snd (run_setup w d)) !! p = d !! p /\
     disk (snd (run_visualization w d)) !! p = d !! p) /\
  (forall img, In (CPageScreenshot "verification.png" false, None)
                  (trace (snd (run_setup w d))) ->
     answer (w_page_screenshot w false) = Returned img ->
     disk (snd (run_setup w d)) !! "verification.png" = Some img) /\
  (forall img, In (CLocatorScreenshot "#demo-svg" "verification_svg.png", None)
                  (trace (snd (run_visualization w d))) ->
     answer (w_locator_screenshot w "#demo-svg") = Returned img ->
     disk (snd (run_visualization w d)) !! "verification_svg.png" = Some img) /\
  (forall img, In (CPageScreenshot "verification.png" true, None)
                  (trace (snd (run_visualization w d))) ->
     answer (w_page_screenshot w true) = Returned img ->
     disk (snd (run_visualization w d)) !! "verification.png" = Some img).
Proof.
  split; [| split; [| split; [| split; [| split]]]].
  - intros c o. run_script; intros Hin Hc; entry_cases Hin;
      solve [discriminate Hc | reflexivity].
  - intros c o. run_script; intros Hin Hc; entry_cases Hin;
      solve [discriminate Hc | auto].
  - intros p Hp Hsvg. split; run_script;
      rewrite ?lookup_insert_ne by congruence; reflexivity.
  - intros img Hin Himg. revert Hin. run_script; intros Hin;
      solve [apply lookup_insert_eq | entry_cases Hin].
  - intros img Hin Himg. revert Hin. run_script; intros Hin;
      solve [apply lookup_insert_eq | entry_cases Hin].
  - intros img Hin Himg. revert Hin. run_script; intros Hin;
      rewrite ?lookup_insert_ne by discriminate;
      solve [apply lookup_insert_eq | entry_cases Hin].
Qed.

Lemma C8_fixed_capture_targets_witness :
  disk (snd (run_setup w_demo {[ "verification.png" := [] ]})) !! "verification.png"
  = Some png.
Proof.
  apply (proj1 (proj2 (proj2 (proj2
           (C8_fixed_capture_targets w_demo {[ "verification.png" := [] ]}))))).
  - vm_compute. auto 12.
  - reflexivity.
Defined.

(** ** Files survive a failure *)

(** No operation of the scripts deletes a file; the combinators pass that
    on, whichever way their parts end. *)

Lemma keeps_ret {A} (a : A) : keeps_files (ret a).
Proof. intros s p H. exact H. Qed.

Lemma keeps_raise {A} (e : exn) : keeps_files (@raise A e).
Proof. intros s p H. exact H. Qed.

Lemma keeps_print (line : string) : keeps_files (print line).
Proof. intros s p H. exact H. Qed.

Lemma keeps_record (c : Call) (o : option exn) : keeps_files (record c o).
Proof. intros s p H. exact H. Qed.

Lemma keeps_dispatch (evs : list ObservedEvent) : keeps_files (dispatch evs).
Proof. intros s p H. exact H. Qed.

Lemma keeps_page_on (event : string) (h : string -> string) :
  keeps_files (page_on event h).
Proof. intros s p H. exact H. Qed.

Lemma keeps_write_file (path : string) (img : image) :
  keeps_files (write_file path img).
Proof.
  intros s p H. unfold write_file. simpl.
  apply lookup_insert_is_Some. destruct (decide (path = p)); auto.
Qed.

Lemma keeps_bind {A B} (m : M A) (k : A -> M B) :
  keeps_files m -> (forall a, keeps_files (k a)) -> keeps_files (bind m k).
Proof.
  intros Hm Hk s p H. unfold bind. specialize (Hm s p H).
  destruct (m s) as [[a | e] s1]; [apply Hk |]; exact Hm.
Qed.

Lemma keeps_try_except {A} (body : M A) (handler : exn -> M A) :
  keeps_files body -> (forall e, keeps_files (handler e)) ->
  keeps_files (try_except body handler).
Proof.
  intros Hb Hh s p H. unfold try_except. specialize (Hb s p H).
  destruct (body s) as [[a | e] s1]; [exact Hb |].
  destruct (is_Exception e); [apply Hh |]; exact Hb.
Qed.

Lemma keeps_finally {A} (body : M A) (cleanup : M unit) :
  keeps_files body -> keeps_files cleanup -> keeps_files (finally body cleanup).
Proof.
  intros Hb Hc s p H. unfold finally. specialize (Hb s p H).
  destruct (body s) as [r s1]. specialize (Hc s1 p Hb).
  destruct (cleanup s1) as [[[] | e] s2]; exact Hc.
Qed.

Lemma keeps_if {A} (b : bool) (m1 m2 : M A) :
  keeps_files m1 -> keeps_files m2 -> keeps_files (if b then m1 else m2).
Proof. now destruct b. Qed.

Lemma keeps_call0 {A} (c : Call) (o : outcome A) : keeps_files (call0 c o).
Proof.
  destruct o; apply keeps_bind; intros;
    auto using keeps_record, keeps_ret, keeps_raise.
Qed.

Lemma keeps_call {A} (c : Call) (r : reply A) : keeps_files (call c r).
Proof. apply keeps_bind; intros; auto using keeps_dispatch, keeps_call0. Qed.

Create HintDb keeps.
#[local] Hint Resolve keeps_ret keeps_raise keeps_print keeps_record
  keeps_dispatch keeps_page_on keeps_write_file keeps_try_except keeps_finally
  keeps_if keeps_call0 keeps_call : keeps.

Ltac keeps :=
  repeat (first [apply keeps_bind; [| intros ?] | apply keeps_try_except; [| intros ?]
                | apply keeps_finally | apply keeps_if]);
  auto with keeps.

Lemma keeps_verify_setup_main (w : World) : keeps_files (verify_setup_main w).
Proof.
  unfold verify_setup_main, verify, with_sync_playwright, launch, new_page, goto,
    wait_for_load_state, page_title, is_visible, page_screenshot, browser_close,
    pass.
  keeps.
Qed.

Lemma keeps_verify_visualization (w : World) : keeps_files (verify_visualization w).
Proof.
  unfold verify_visualization, with_sync_playwright, launch, new_page, goto,
    sleep, page_screenshot, count, locator_screenshot, browser_close, pass.
  keeps.
Qed.

(** C9: neither script removes a file, and a screenshot that was written
    ([verification.png] in both scripts, [verification_svg.png] in
    verify_visualization.py) is still on disk with the same content when the
    run ends, whichever call fails after it and whether or not the run ends
    by raising. *)
Theorem C9_written_files_remain (w : World) (d : gmap string image) :
  (forall p, is_Some (d !! p) ->
     is_Some (disk (snd (run_setup w d)) !! p) /\
     is_Some (disk (snd (run_visualization w d)) !! p)) /\
  (forall img, In (CPageScreenshot "verification.png" false, None)
                  (trace (snd (run_setup w d))) ->
     answer (w_page_screenshot w false) = Returned img ->
     disk (snd (run_setup w d)) !! "verification.png" = Some img) /\
  (forall img, In (CPageScreenshot "verification.png" true, None)
                  (trace (snd (run_visualization w d))) ->
     answer (w_page_screenshot w true) = Returned img ->
     disk (snd (run_visualization w d)) !! "verification.png" = Some img) /\
  (forall img, In (CLocatorScreenshot "#demo-svg" "verification_svg.png", None)
                  (trace (snd (run_visualization w d))) ->
     answer (w_locator_screenshot w "#demo-svg") = Returned img ->
     disk (snd (run_visualization w d)) !! "verification_svg.png" = Some img).
Proof.
  split; [| split; [| split]].
  - intros p Hp. split.
    + exact (keeps_verify_setup_main w (init d) p Hp).
    + exact (keeps_verify_visualization w (init d) p Hp).
  - intros img Hin Himg. revert Hin. run_script; intros Hin;
      solve [apply lookup_insert_eq | entry_cases Hin].
  - intros img Hin Himg. revert Hin. run_script; intros Hin;
      rewrite ?lookup_insert_ne by discriminate;
      solve [apply lookup_insert_eq | entry_cases Hin].
  - intros img Hin Himg. revert Hin. run_script; intros Hin;
      solve [apply lookup_insert_eq | entry_cases Hin].
Qed.

Lemma C9_written_files_remain_witness :
  fst (run_visualization w_late_failure ∅) = Raised (Exn true "Target closed") /\
  disk (snd (run_visualization w_late_failure ∅)) !! "verification.png" = Some png.
Proof.
  split; [reflexivity |].
  apply (proj1 (proj2 (proj2 (C9_written_files_remain w_late_failure ∅)))).
  - vm_compute. auto 12.
  - reflexivity.
Defined.

(** ** What the checks print *)

Lemma rendered_elsewhere (evs : list ObservedEvent) (line : string) :
  In line (map rendered evs) -> from_elsewhere line.
Proof.
  intros H. apply in_map_iff in H as (ev & <- & _). left. now exists ev.
Qed.

Lemma elsewhere_not_slider (line : string) :
  from_elsewhere line -> line <> "Slider A is visible".
Proof.
  intros [[[t | m] ->] | [[t ->] | [-> | [-> | [e ->]]]]]; discriminate.
Qed.

(** Every line of an explicit log comes from elsewhere. *)
Ltac classify H :=
  rewrite ?in_app_iff in H; simpl in H;
  repeat match type of H with
         | _ \/ _ => destruct H as [H | H]
         end;
  try contradiction;
  try (now apply rendered_elsewhere in H);
  subst; unfold from_elsewhere; eauto 8.

Ltac flatten :=
  repeat (progress (rewrite <- ?app_assoc, <- ?app_comm_cons; cbn [app]));
  rewrite ?app_nil_r.

(** C10: in verify_setup.py the check of [#num-a] prints
    [Slider A is visible] when it answers true and nothing otherwise: when it
    does not answer true, every printed line comes from an observer, the
    title, the sidebar check or the error handler.  The [.sidebar] check
    prints a line for either answer.  Exactly: whenever the [#num-a] check
    is reached and answers, the whole log is [checks_log] followed by
    [capture_log], where the check contributes the events that arrived
    during it and, only if it answered true, the line
    [Slider A is visible]. *)
Theorem C10_slider_logged_only_when_visible (w : World) (d : gmap string image) :
  (answer (w_is_visible w "#num-a") <> Returned true ->
   (forall line, In line (stdout (snd (run_setup w d))) -> from_elsewhere line) /\
   ~ In "Slider A is visible" (stdout (snd (run_setup w d)))) /\
  (answer (w_is_visible w "#num-a") = Returned true ->
   In (CIsVisible "#num-a", None) (trace (snd (run_setup w d))) ->
   In "Slider A is visible" (stdout (snd (run_setup w d)))) /\
  (forall b, answer (w_is_visible w ".sidebar") = Returned b ->
   In (CIsVisible ".sidebar", None) (trace (snd (run_setup w d))) ->
   In (if b then "Sidebar is visible" else "Sidebar is NOT visible")
      (stdout (snd (run_setup w d)))) /\
  (forall slider_a, answer (w_is_visible w "#num-a") = Returned slider_a ->
   In (CIsVisible "#num-a", None) (trace (snd (run_setup w d))) ->
   exists title sidebar,
     answer (w_title w) = Returned title /\
     answer (w_is_visible w ".sidebar") = Returned sidebar /\
     stdout (snd (run_setup w d)) =
     (checks_log w title sidebar slider_a ++ capture_log w)%list).
Proof.
  split; [| split; [| split]].
  - intros Hnot.
    assert (Hall : forall line, In line (stdout (snd (run_setup w d))) ->
                                from_elsewhere line).
    { intros line. run_script; rewrite ?heard; intros Hin;
        solve [congruence | classify Hin]. }
    split; [exact Hall |].
    intros Hin. now apply Hall, elsewhere_not_slider in Hin.
  - intros Hyes. run_script; intros Hin; solve [in_log | entry_cases Hin].
  - intros b Hb. run_script; intros Hin; solve [in_log | entry_cases Hin].
  - intros slider_a Hs. unfold checks_log, capture_log.
    run_script; intros Hin; try solve [entry_cases Hin];
      do 2 eexists; (split; [reflexivity |]); (split; [reflexivity |]);
      rewrite ?heard; flatten; reflexivity.
Qed.

Lemma C10_slider_logged_only_when_visible_witness :
  ~ In "Slider A is visible" (stdout (snd (run_setup w_bare ∅))) /\
  In "Sidebar is visible" (stdout (snd (run_setup w_bare ∅))) /\
  exists title sidebar,
    answer (w_title w_bare) = Returned title /\
    answer (w_is_visible w_bare ".sidebar") = Returned sidebar /\
    stdout (snd (run_setup w_bare ∅)) =
    (checks_log w_bare title sidebar false ++ capture_log w_bare)%list.
Proof.
  split; [| split].
  - apply (proj1 (C10_slider_logged_only_when_visible w_bare ∅)). discriminate.
  - apply (proj1 (proj2 (proj2 (C10_slider_logged_only_when_visible w_bare ∅)))
             true).
    + reflexivity.
    + vm_compute. auto 12.
  - apply (proj2 (proj2 (proj2 (C10_slider_logged_only_when_visible w_bare ∅)))
             false).
    + reflexivity.
    + vm_compute. auto 12.
Defined.

(** * Further properties of the two scripts *)

(** ** The first failure ends the work *)

(** X1: in verify_visualization.py nothing is called after a call has
    raised, apart from leaving the [with sync_playwright()] block; and when
    the script raises [e], some library call raised [e]. *)
Theorem X1_visualization_fails_fast (w : World) (d : gmap string image) :
  (forall pre en post,
     trace (snd (run_visualization w d)) = (pre ++ en :: post)%list ->
     forall c e, In (c, Some e) pre -> en = (CStop, None)) /\
  (forall e, fst (run_visualization w d) = Raised e ->
     exists c, In (c, Some e) (trace (snd (run_visualization w d)))).
Proof.
  split.
  - intros pre en post E.
    assert (H : each_after
                  (fun seen x => forall c e, In (c, Some e) seen ->
                                   x = (CStop, None))
                  [] (trace (snd (run_visualization w d)))).
    { clear. run_script; cbn [each_after app]; repeat split; intros ? ? Hin;
        try reflexivity; entry_cases Hin. }
    exact (@each_after_split _ _ _ _ H pre _ post E).
  - intros e. run_script; intros He; try discriminate He;
      injection He as <-; eexists; in_log.
Qed.

Lemma X1_visualization_fails_fast_witness :
  fst (run_visualization w_late_failure ∅) = Raised (Exn true "Target closed") /\
  exists c, In (c, Some (Exn true "Target closed"))
               (trace (snd (run_visualization w_late_failure ∅))).
Proof.
  split; [reflexivity |].
  apply (proj2 (X1_visualization_fails_fast w_late_failure ∅)). reflexivity.
Defined.

(** X2: in verify_setup.py, after a call has raised, the only calls still
    made are [browser.close()] and the exit of the [with] block: the rest of
    the [try] block is skipped. *)
Theorem X2_setup_fails_fast (w : World) (d : gmap string image)
  (pre post : list Entry) (en : Entry) (c : Call) (e : exn)
  (Htrace : trace (snd (run_setup w d)) = (pre ++ en :: post)%list)
  (Hraised : In (c, Some e) pre) :
  fst en = CClose \/ fst en = CStop.
Proof.
  assert (H : each_after
                (fun seen x => forall c e, In (c, Some e) seen ->
                                 fst x = CClose \/ fst x = CStop)
                [] (trace (snd (run_setup w d)))).
  { clear. run_script; cbn [each_after app]; repeat split; intros ? ? Hin;
      try (now left); try (now right); entry_cases Hin. }
  exact (@each_after_split _ _ _ _ H pre _ post Htrace c e Hraised).
Qed.

Lemma X2_setup_fails_fast_witness :
  fst (CClose, @None exn) = CClose \/ fst (CClose, @None exn) = CStop.
Proof.
  refine (X2_setup_fails_fast w_unreachable ∅
            [(CStart, None); (CLaunch true ["--enable-unsafe-webgpu"], None);
             (CNewPage, None); (COn "console", None); (COn "pageerror", None);
             (CGoto "http://localhost:5173", Some refused)]
            [(CStop, None)] (CClose, None)
            (CGoto "http://localhost:5173") refused _ _).
  - vm_compute. reflexivity.
  - vm_compute. auto 12.
Defined.

(** ** What the exit of verify_setup.py depends on *)

(** X3: once the browser is up and the page is open, verify_setup.py ends
    the way [browser.close()] ends, provided every exception raised by
    navigation, the checks and the screenshot is an instance of [Exception]:
    such a failed verification does not make the script fail.  When one of
    these calls raises anything else, the script ends by raising it. *)
Theorem X3_setup_outcome_is_close (w : World) (d : gmap string image)
  (Hstart : w_start w = Returned tt)
  (Hlaunch : w_launch w true ["--enable-unsafe-webgpu"] = Returned tt)
  (Hpage : w_new_page w = Returned tt) :
  ((forall c e, In (c, Some e) (trace (snd (run_setup w d))) -> c <> CClose ->
                is_Exception e = true) ->
   fst (run_setup w d) = answer (w_close w)) /\
  (forall c e, In (c, Some e) (trace (snd (run_setup w d))) -> c <> CClose ->
     is_Exception e = false ->
     fst (run_setup w d) = Raised e).
Proof.
  split.
  - run_script; intros Hall; try reflexivity; by_class Hall.
  - intros c e. run_script; intros Hin Hne Hclass; entry_cases Hin;
      solve [reflexivity | congruence].
Qed.

Lemma X3_setup_outcome_is_close_witness :
  fst (run_setup w_unreachable ∅) = Returned tt /\
  fst (run_setup w_interrupted ∅) = Raised interrupt.
Proof.
  split.
  - apply (proj1 (X3_setup_outcome_is_close w_unreachable ∅
                    eq_refl eq_refl eq_refl)).
    intros c e Hin _. vm_compute in Hin.
    repeat (destruct Hin as [Hin | Hin];
            [try discriminate Hin; injection Hin as _ <-; reflexivity |]).
    contradiction.
  - apply (proj2 (X3_setup_outcome_is_close w_interrupted ∅
                    eq_refl eq_refl eq_refl)
             (CGoto "http://localhost:5173") interrupt).
    + vm_compute. auto 12.
    + discriminate.
    + reflexivity.
Defined.

(** ** Where the scripts write *)

(** X4: a run whose page screenshot did not return leaves the disk exactly
    as it was, in both scripts; and verify_setup.py never touches a path
    other than [verification.png]. *)
Theorem X4_writes_confined (w : World) (d : gmap string image) :
  (~ In (CPageScreenshot "verification.png" false, None)
        (trace (snd (run_setup w d))) ->
   disk (snd (run_setup w d)) = d) /\
  (~ In (CPageScreenshot "verification.png" true, None)
        (trace (snd (run_visualization w d))) ->
   disk (snd (run_visualization w d)) = d) /\
  (forall p, p <> "verification.png" ->
     disk (snd (run_setup w d)) !! p = d !! p).
Proof.
  split; [| split].
  - run_script; intros Hn; try reflexivity; exfalso; apply Hn; in_log.
  - run_script; intros Hn; try reflexivity; exfalso; apply Hn; in_log.
  - intros p Hp. run_script; rewrite ?lookup_insert_ne by congruence;
      reflexivity.
Qed.

Lemma X4_writes_confined_witness :
  disk (snd (run_visualization w_unreachable {[ "verification.png" := png ]}))
  = {[ "verification.png" := png ]}.
Proof.
  apply (proj1 (proj2 (X4_writes_confined w_unreachable
                         {[ "verification.png" := png ]}))).
  vm_compute. intros Hin.
  repeat (destruct Hin as [Hin | Hin]; [discriminate Hin |]). exact Hin.
Defined.

(** ** The log of a successful run *)

(** X5: when every call of verify_setup.py up to the screenshot returns, the
    log is, in this order: the events of navigation, of the wait and of the
    title query, the title line, the events and the line of the sidebar
    check, the events of the slider check and its line if it answered true,
    then the events of the screenshot and of [browser.close()]; and the disk
    is the old one with [verification.png] replaced by the image. *)
Theorem X5_setup_success_log (w : World) (d : gmap string image)
  (title : string) (sidebar slider_a : bool) (img : image)
  (Hstart : w_start w = Returned tt)
  (Hlaunch : w_launch w true ["--enable-unsafe-webgpu"] = Returned tt)
  (Hpage : w_new_page w = Returned tt)
  (Hgoto : answer (w_goto w "http://localhost:5173") = Returned tt)
  (Hidle : answer (w_wait_for_load_state w "networkidle") = Returned tt)
  (Htitle : answer (w_title w) = Returned title)
  (Hsidebar : answer (w_is_visible w ".sidebar") = Returned sidebar)
  (Hslider : answer (w_is_visible w "#num-a") = Returned slider_a)
  (Hshot : answer (w_page_screenshot w false) = Returned img) :
  stdout (snd (run_setup w d)) = setup_log w title sidebar slider_a /\
  disk (snd (run_setup w d)) = <["verification.png" := img]> d.
Proof.
  split.
  - unfold setup_log. run_script; rewrite !heard;
      rewrite <- ?app_assoc; try rewrite app_nil_r; reflexivity.
  - run_script; reflexivity.
Qed.

Lemma X5_setup_success_log_witness :
  stdout (snd (run_setup w_bare ∅)) =
  ["Console: ready"; "Page Error: boom"; "Page title: Demo";
   "Sidebar is visible"].
Proof.
  exact (proj1 (X5_setup_success_log w_bare ∅ "Demo" true false png
                  eq_refl eq_refl eq_refl eq_refl eq_refl eq_refl eq_refl
                  eq_refl eq_refl)).
Defined.

(** ** The guard of the element screenshot *)

(** X6: verify_visualization.py calls [locator.screenshot] only on
    [#demo-svg], only to [verification_svg.png] and only after [count()]
    answered a positive number; and whenever [count()] answers a positive
    number the element screenshot is attempted. *)
Theorem X6_element_capture_guard (w : World) (d : gmap string image) :
  (forall sel path o,
     In (CLocatorScreenshot sel path, o) (trace (snd (run_visualization w d))) ->
     sel = "#demo-svg" /\ path = "verification_svg.png" /\
     exists n, answer (w_count w "#demo-svg") = Returned (S n)) /\
  (forall n, answer (w_count w "#demo-svg") = Returned (S n) ->
     In (CCount "#demo-svg", None) (trace (snd (run_visualization w d))) ->
     exists o, In (CLocatorScreenshot "#demo-svg" "verification_svg.png", o)
                  (trace (snd (run_visualization w d)))).
Proof.
  split.
  - intros sel path o. run_script; intros Hin; entry_cases Hin;
      repeat split;
      match goal with
      | H : (0 <? ?n)%nat = true |- _ => destruct n; [discriminate H | eauto]
      end.
  - intros n Hn. run_script; intros Hin;
      solve [eexists; in_log | entry_cases Hin].
Qed.

Lemma X6_element_capture_guard_witness :
  exists o, In (CLocatorScreenshot "#demo-svg" "verification_svg.png", o)
               (trace (snd (run_visualization w_demo ∅))).
Proof.
  apply (proj2 (X6_element_capture_guard w_demo ∅) 0).
  - reflexivity.
  - vm_compute. auto 12.
Defined.

(** ** No retries *)

Ltac distinct :=
  repeat (apply List.NoDup_cons;
          [intros Hin; simpl in Hin;
           repeat (destruct Hin as [Hin | Hin]; [discriminate Hin |]);
           exact Hin |]);
  apply List.NoDup_nil.

(** X7: neither script makes the same library call twice in a run. *)
Theorem X7_no_call_repeated (w : World) (d : gmap string image) :
  List.NoDup (map fst (trace (snd (run_setup w d)))) /\
  List.NoDup (map fst (trace (snd (run_visualization w d)))).
Proof.
  split.
  - run_script; cbn [map fst]; distinct.
  - run_script; cbn [map fst]; distinct.
Qed.
